(** * Profile provisioning on user creation

    A shallow embedding of [mysite/users/signals.py]: the [post_save]
    receiver [build_profile], which creates the companion [Profile] row
    of a freshly inserted [User].

    The receiver is three lines of Python; what it does to the database
    is visible only through the collaborators it talks to.  The
    development therefore has three layers:

    - the rows and the two tables ([User], [Profile], [DB]), together
      with a journal of the writes that were issued;
    - a small state-and-exception monad [M], in which a raised exception
      carries the database as the failing statement left it (a Python
      exception does not undo earlier writes);
    - the receiver itself, the signal dispatch it is registered with,
      and the save operation that fires the signal. *)

From Stdlib Require Import ZArith Lia.
From stdpp Require Import base option list gmap strings relations.

Set Default Proof Using "Type".

(** ** Rows *)

(** [django.contrib.auth.models.User]: the primary key and the login name.
    Two model instances denote the same row when their keys agree. *)
Record User := mkUser { user_pk : Z; username : string }.

(** [users.models.Profile]: the row stores the key of its user. *)
Record Profile := mkProfile { profile_user_id : Z }.

#[global] Instance User_eq_dec : EqDecision User.
Proof. solve_decision. Defined.

#[global] Instance Profile_eq_dec : EqDecision Profile.
Proof. solve_decision. Defined.

(** The model classes a signal can be sent by. *)
Inductive Model := UserModel | ProfileModel | OtherModel (label : string).

(** Values found in the extra keyword arguments of a signal. *)
Inductive PyVal := PyNone | PyBool (b : bool) | PyStr (s : string).

Definition Kwargs := list (string * PyVal).

(** ** The database *)

(** A write issued to one of the two stores.  The journal records a
    write when it is issued, whether or not the store accepts it. *)
Inductive Write :=
| WriteUser (u : User)
| CreateProfile (u : User).

#[global] Instance Write_eq_dec : EqDecision Write.
Proof. solve_decision. Defined.

Record DB := mkDB {
  auth_user : gmap Z User;        (* the User table, by primary key *)
  users_profile : list Profile;   (* the Profile table, in insertion order *)
  profile_store_up : bool;        (* does the Profile store take writes? *)
  journal : list Write            (* writes issued so far, oldest first *)
}.

Definition empty_db : DB := mkDB ∅ [] true [].

Definition record_write (w : Write) (db : DB) : DB :=
  mkDB (auth_user db) (users_profile db) (profile_store_up db)
       (journal db ++ [w]).

(** The Profile rows that reference the user with key [uid]. *)
Definition profiles_of (uid : Z) (db : DB) : list Profile :=
  filter (λ p, profile_user_id p = uid) (users_profile db).

Definition profile_count (uid : Z) (db : DB) : nat :=
  length (profiles_of uid db).

Definition has_profile (uid : Z) (db : DB) : bool :=
  bool_decide (profiles_of uid db ≠ []).

Definition user_exists (uid : Z) (db : DB) : bool :=
  bool_decide (is_Some (auth_user db !! uid)).

(** The writes of the journal that went to the Profile store. *)
Definition is_profile_write (w : Write) : bool :=
  match w with CreateProfile _ => true | WriteUser _ => false end.

Definition profile_writes (l : list Write) : list Write :=
  List.filter is_profile_write l.

Definition user_writes (l : list Write) : list Write :=
  List.filter (λ w, negb (is_profile_write w)) l.

(** ** Effects *)

(** Why a Profile could not be persisted.  The specification calls both
    a [ProvisioningError]. *)
Inductive ProvisioningError :=
| DuplicateAssociation   (* the user already has a Profile *)
| StorageUnavailable.    (* the Profile store takes no writes *)

Inductive Outcome (A : Type) :=
| Returned (a : A) (db : DB)
| Raised (e : ProvisioningError) (db : DB).

Arguments Returned {A} a db.
Arguments Raised {A} e db.

Definition M (A : Type) : Type := DB → Outcome A.

Definition ret {A} (a : A) : M A := λ db, Returned a db.

Definition bind {A B} (m : M A) (k : A → M B) : M B :=
  λ db, match m db with
        | Returned a db' => k a db'
        | Raised e db' => Raised e db'
        end.

Notation "m >>= k" := (bind m k) (at level 50, left associativity).
Notation "m >> k" := (bind m (λ _, k)) (at level 50, left associativity).

(** The database an operation leaves behind, however it ended. *)
Definition final {A} (o : Outcome A) : DB :=
  match o with Returned _ db => db | Raised _ db => db end.


(** ** The Profile manager *)

(** [Profile] is imported from [users/models.py]; the receiver uses one
    operation of its manager, [Profile.objects.create(user=...)]. *)
Class ProfileManager := { objects_create : User → M unit }.

(** Modelled from the spec: [users/models.py] is not part of the sources.
    A Profile has a required one-to-one association to a User, and a
    create fails when it cannot be persisted, "storage unavailable" or
    "a duplicate association".  An accepted create appends one row that
    references the user; a rejected one leaves both tables as they were. *)
Definition Profile_objects_create (user : User) : M unit := λ db,
  let db1 := record_write (CreateProfile user) db in
  if negb (profile_store_up db) then Raised StorageUnavailable db1
  else if has_profile (user_pk user) db then Raised DuplicateAssociation db1
  else Returned tt
         (mkDB (auth_user db1)
               (users_profile db1 ++ [mkProfile (user_pk user)])
               (profile_store_up db1) (journal db1)).

(** A receiver of [post_save] as the dispatcher calls it. *)
Definition Receiver := Model → User → bool → Kwargs → M unit.

(** The dispatcher calls the connected receivers in turn, on the caller's
    thread; an exception raised by one of them ends the dispatch and
    reaches the caller. *)
Fixpoint call_receivers (rs : list Receiver)
    (sender : Model) (instance : User) (created : bool) (kwargs : Kwargs)
    : M unit :=
  match rs with
  | [] => ret tt
  | r :: rs' =>
      r sender instance created kwargs >>
      call_receivers rs' sender instance created kwargs
  end.

(** The keyword arguments the save operation sends along. *)
Definition save_kwargs : Kwargs :=
  [("raw", PyBool false); ("using", PyStr "default");
   ("update_fields", PyNone)].

Definition write_user (u : User) (db : DB) : DB :=
  mkDB (<[user_pk u := u]> (auth_user db)) (users_profile db)
       (profile_store_up db) (journal db ++ [WriteUser u]).

(** Modelled from the spec: a surrounding transaction.  When its body
    raises, the tables are restored to what they were on entry; the
    journal of issued writes is kept. *)
Definition atomic {A} (m : M A) : M A := λ db,
  match m db with
  | Returned a db' => Returned a db'
  | Raised e db' =>
      Raised e (mkDB (auth_user db) (users_profile db)
                     (profile_store_up db') (journal db'))
  end.

(** ** The receiver *)

Section Receiver.
Context `{PM : ProfileManager}.

(** [signals.py], [build_profile]:
<<
    def build_profile(sender,instance,created,**kwargs):
       if created:
          Profile.objects.create(user=instance)
>>
*)
Definition build_profile
    (sender : Model) (instance : User) (created : bool) (kwargs : Kwargs)
    : M unit :=
  if created then objects_create instance else ret tt.

(** [@receiver(post_save,sender=User)] connects [build_profile] for the
    sender [User] and for no other.  The second receiver of the file,
    [save_profile], is commented out: it is never connected. *)
Definition post_save_receivers (sender : Model) : list Receiver :=
  match sender with
  | UserModel => [build_profile]
  | _ => []
  end.

Definition post_save_send
    (sender : Model) (instance : User) (created : bool) (kwargs : Kwargs)
    : M unit :=
  call_receivers (post_save_receivers sender) sender instance created kwargs.

(** Modelled from the spec: the persistence layer that owns the User
    table is an external collaborator.  It commits the User row, then
    fires the hook synchronously, once, with a flag that is true exactly
    when the commit inserted a new row.  The sources open no transaction
    around the two writes. *)
Definition User_save (u : User) : M unit := λ db,
  let created := negb (user_exists (user_pk u) db) in
  post_save_send UserModel u created save_kwargs (write_user u db).

End Receiver.

(** The Profile store of this project. *)
#[global] Instance one_to_one_profiles : ProfileManager :=
  {| objects_create := Profile_objects_create |}.

Definition alice : User := mkUser 1 "alice".
Definition alice2 : User := mkUser 1 "alice2".
Definition bob : User := mkUser 2 "bob".

(** ** The runs of the persistence layer *)

(** One step of the system: a user is created, which fires the hook with
    [created=True], or an existing user is updated, which fires it with
    [created=False]. *)
Inductive step (db : DB) : DB → Prop :=
| step_create (u : User) :
    auth_user db !! user_pk u = None →
    step db (final (post_save_send UserModel u true save_kwargs
                      (write_user u db)))
| step_update (u : User) :
    is_Some (auth_user db !! user_pk u) →
    step db (final (post_save_send UserModel u false save_kwargs
                      (write_user u db))).

Definition reachable (db : DB) : Prop := rtc step empty_db db.

(** A sequence of saves, each a request of its own: a failed one does not
    stop the next. *)
Definition save_all (us : list User) (db : DB) : DB :=
  foldl (λ d u, final (User_save u d)) db us.

(** A direct firing of the hook, with all four arguments. *)
Record Firing := mkFiring {
  f_sender : Model;
  f_instance : User;
  f_created : bool;
  f_kwargs : Kwargs
}.

Definition fire (f : Firing) (db : DB) : DB :=
  final (build_profile (f_sender f) (f_instance f) (f_created f)
           (f_kwargs f) db).

Definition fire_all (fs : list Firing) (db : DB) : DB :=
  foldl (λ d f, fire f d) db fs.

(** ** Properties of the stores *)

(** Every key of the User table is the key of the row stored under it. *)
Definition keyed (db : DB) : Prop :=
  ∀ k u, auth_user db !! k = Some u → user_pk u = k.

(** Users and Profiles correspond one to one. *)
Definition one_to_one (db : DB) : Prop :=
  ∀ uid, profile_count uid db = if user_exists uid db then 1 else 0.

Definition consistent (db : DB) : Prop :=
  profile_store_up db = true ∧ keyed db ∧ one_to_one db.

(** No Profile references a missing User. *)
Definition no_orphan (db : DB) : Prop :=
  ∀ p, p ∈ users_profile db →
       is_Some (auth_user db !! profile_user_id p).

(** In the journal every create of a Profile comes directly after the
    write of the User it is for. *)
Definition journal_ordered (l : list Write) : Prop :=
  ∀ i u, l !! i = Some (CreateProfile u) →
         ∃ j, i = S j ∧ l !! j = Some (WriteUser u).


(** The same user saved [n] times in a row. *)
Definition save_repeatedly (n : nat) (u : User) (db : DB) : DB :=
  Nat.iter n (λ d, final (User_save u d)) db.


(** * The movie catalogue

    [REST/mysite/movies]: the model [MovieData] of [models.py] and the
    query sets the two view sets of [views.py] serve.  The two
    [FloatField]s are stored and never computed with: the type of their
    values is a parameter. *)

Section Movies.
Context {float : Type}.

(** [MovieData]: a name, two floating-point numbers and a kind. *)
Record MovieData := mkMovieData {
  name : string;
  duration : float;
  rating : float;
  typ : string
}.

(** [def __str__(self): return self.name] *)
Definition MovieData_str (self : MovieData) : string := name self.

(** [typ= models.CharField(max_length=300,default="fiction")] *)
Definition typ_default : string := "fiction".

(** [MovieData(name=..., duration=..., rating=...)], with or without a
    [typ]: a field that is left out takes its default. *)
Definition MovieData_init
    (n : string) (d r : float) (t : option string) : MovieData :=
  mkMovieData n d r (default typ_default t).

(** [MovieViewSet]: [queryset = MovieData.objects.all()] *)
Definition MovieViewSet_queryset (tbl : list MovieData) : list MovieData :=
  tbl.

(** [ActionView]: [queryset= MovieData.objects.filter(typ="fiction")] *)
Definition ActionView_queryset (tbl : list MovieData) : list MovieData :=
  filter (λ m, typ m = "fiction") tbl.

End Movies.

Arguments MovieData : clear implicits.

(** * The food views

    [revision/food/views.py].  The model [Item] of [food/models.py] and
    the requests are not looked into by the views: both are parameters.
    The Item table maps primary keys to rows.  What [render] makes of a
    template is not modelled: a response records the template and the
    context it was rendered with. *)

Section Food.
Context {Item HttpRequest : Type}.

Inductive ContextValue :=
| CtxItem (it : Item)
| CtxItemList (l : list Item).

Inductive HttpResponse :=
| render (req : HttpRequest) (template_name : string)
         (context : list (string * ContextValue))
| HttpResponse_of (content : string).

(** [Item.DoesNotExist], raised by [Item.objects.get]. *)
Inductive ViewError := DoesNotExist.

Inductive ViewResult :=
| Responded (r : HttpResponse)
| Failed (e : ViewError).

(** [Item.objects.all()] *)
Definition Item_objects_all (tbl : gmap Z Item) : list Item :=
  (map_to_list tbl).*2.

(** [Item.objects.get(pk=item_id)] *)
Definition Item_objects_get (item_id : Z) (tbl : gmap Z Item)
    : option Item :=
  tbl !! item_id.

(** [views.py], [index]:
<<
    def index(req):
       item_list = Item.objects.all()
       context={
          "item_list":item_list
       }
       return render(req,"food/index.html",context)
>>
*)
Definition index (req : HttpRequest) (tbl : gmap Z Item) : ViewResult :=
  let item_list := Item_objects_all tbl in
  let context := [("item_list", CtxItemList item_list)] in
  Responded (render req "food/index.html" context).

(** [views.py], [detail]:
<<
    def detail(req,item_id):
       item= Item.objects.get(pk=item_id)
       context={
          "item":item
       }
       return render(req,"food/details.html",context)
>>
    There is no handler around the [get]: a missing key ends the view
    with [DoesNotExist]. *)
Definition detail (req : HttpRequest) (item_id : Z) (tbl : gmap Z Item)
    : ViewResult :=
  match Item_objects_get item_id tbl with
  | None => Failed DoesNotExist
  | Some it =>
      let context := [("item", CtxItem it)] in
      Responded (render req "food/details.html" context)
  end.

(** [views.py], [item]:
<<
    def item(req):
       return HttpResponse("hey hey this is item")
>>
*)
Definition item (req : HttpRequest) : ViewResult :=
  Responded (HttpResponse_of "hey hey this is item").

End Food.

(** * Lemmas *)

Section MonadFacts.
Context {A B : Type}.

Lemma bind_ret_l (a : A) (k : A → M B) db : (ret a >>= k) db = k a db.
Proof. reflexivity. Qed.

Lemma bind_ret_r (m : M unit) db : (m >> ret tt) db = m db.
Proof. unfold bind, ret. by destruct (m db) as [[] ?|? ?]. Qed.

End MonadFacts.

Lemma profiles_of_snoc uid rows p up jn tbl :
  profiles_of uid (mkDB tbl (rows ++ [p]) up jn) =
  profiles_of uid (mkDB tbl rows up jn) ++
    (if decide (profile_user_id p = uid) then [p] else []).
Proof.
  unfold profiles_of; simpl. rewrite filter_app. by f_equal.
Qed.

Lemma has_profile_count uid db :
  has_profile uid db = false ↔ profile_count uid db = 0.
Proof.
  unfold has_profile, profile_count.
  rewrite bool_decide_eq_false, length_zero_iff_nil.
  split; [apply dec_stable | intros -> ?; done].
Qed.

Lemma has_profile_true uid db :
  has_profile uid db = true ↔ 0 < profile_count uid db.
Proof.
  unfold has_profile, profile_count.
  rewrite bool_decide_eq_true.
  destruct (profiles_of uid db); simpl; split; intros; (done || lia).
Qed.

(** *** The Profile store *)

Ltac case_create u db :=
  unfold Profile_objects_create, record_write; simpl;
  destruct (profile_store_up db) eqn:?,
           (has_profile (user_pk u) db) eqn:?; simpl.

Lemma create_journal u db :
  journal (final (Profile_objects_create u db)) =
  journal db ++ [CreateProfile u].
Proof.
  by case_create u db.
Qed.

Lemma create_auth_user u db :
  auth_user (final (Profile_objects_create u db)) = auth_user db.
Proof.
  by case_create u db.
Qed.

Lemma create_store_up u db :
  profile_store_up (final (Profile_objects_create u db)) =
  profile_store_up db.
Proof.
  by case_create u db.
Qed.

Lemma create_returned u db db' :
  Profile_objects_create u db = Returned tt db' ↔
  profile_store_up db = true ∧ has_profile (user_pk u) db = false ∧
  db' = mkDB (auth_user db) (users_profile db ++ [mkProfile (user_pk u)])
             (profile_store_up db) (journal db ++ [CreateProfile u]).
Proof.
  case_create u db; split; try (intros (? & ? & ?)); try done.
  - by intros [= <-].
  - by subst db'.
Qed.

Lemma create_raised u db e db' :
  Profile_objects_create u db = Raised e db' ↔
  db' = record_write (CreateProfile u) db ∧
  e = (if profile_store_up db then DuplicateAssociation
       else StorageUnavailable) ∧
  (profile_store_up db = false ∨ has_profile (user_pk u) db = true).
Proof.
  case_create u db; split;
    try (intros [= <- <-]); try (intros (-> & -> & [?|?]));
    try done; auto.
Qed.

(** *** The receiver and its dispatch *)

Section ReceiverFacts.
Context `{PM : ProfileManager}.

Lemma build_profile_created sender instance kwargs db :
  build_profile sender instance true kwargs db = objects_create instance db.
Proof. reflexivity. Qed.

Lemma build_profile_not_created sender instance kwargs db :
  build_profile sender instance false kwargs db = Returned tt db.
Proof. reflexivity. Qed.

Lemma hook_raised sender instance created kwargs db e db' :
  build_profile sender instance created kwargs db = Raised e db' ↔
  created = true ∧ objects_create instance db = Raised e db'.
Proof.
  destruct created; simpl; split;
    [by intros | by intros [_ ?] | done | by intros [? _]].
Qed.

Lemma hook_returned sender instance created kwargs db db' :
  build_profile sender instance created kwargs db = Returned tt db' ↔
  (created = true ∧ objects_create instance db = Returned tt db') ∨
  (created = false ∧ db' = db).
Proof.
  destruct created; simpl; split.
  - by left.
  - by intros [[_ ?]|[? _]].
  - intros [= <-]. by right.
  - by intros [[? _]|[_ ->]].
Qed.

Lemma post_save_send_user instance created kwargs db :
  post_save_send UserModel instance created kwargs db =
  build_profile UserModel instance created kwargs db.
Proof.
  unfold post_save_send; simpl. apply bind_ret_r.
Qed.

Lemma User_save_unfold u db :
  User_save u db =
  build_profile UserModel u (negb (user_exists (user_pk u) db)) save_kwargs
    (write_user u db).
Proof. unfold User_save. apply post_save_send_user. Qed.

End ReceiverFacts.

Lemma user_writes_snoc_profile l u :
  user_writes (l ++ [CreateProfile u]) = user_writes l.
Proof. unfold user_writes. rewrite List.filter_app; simpl. apply app_nil_r. Qed.

Lemma profile_writes_snoc_profile l u :
  profile_writes (l ++ [CreateProfile u]) =
  profile_writes l ++ [CreateProfile u].
Proof. unfold profile_writes. by rewrite List.filter_app. Qed.

Lemma user_writes_snoc_user l u :
  user_writes (l ++ [WriteUser u]) = user_writes l ++ [WriteUser u].
Proof. unfold user_writes. by rewrite List.filter_app. Qed.

Lemma profile_writes_snoc_user l u :
  profile_writes (l ++ [WriteUser u]) = profile_writes l.
Proof.
  unfold profile_writes. rewrite List.filter_app; simpl. apply app_nil_r.
Qed.

(** What one create does to the number of Profiles of each user. *)
Lemma create_count u db uid :
  profile_count uid (final (Profile_objects_create u db)) =
  profile_count uid db +
  (if profile_store_up db && negb (has_profile (user_pk u) db)
      && bool_decide (user_pk u = uid)
   then 1 else 0).
Proof.
  unfold profile_count. case_create u db; try (unfold profiles_of; simpl; lia).
  rewrite profiles_of_snoc, length_app; simpl.
  unfold profiles_of; simpl.
  destruct (decide (user_pk u = uid)) as [Heq|Hne].
  - by rewrite (bool_decide_eq_true_2 _ Heq).
  - by rewrite (bool_decide_eq_false_2 _ Hne).
Qed.

(** * The hook *)

(** C1. The hook creates a Profile for the user exactly when [created]
    is true.  With the flag set it is one [Profile.objects.create] for
    the instance and nothing else: one create is issued, and when the
    hook returns the Profile table has gained exactly one row, which
    references the instance, every other user keeping the Profiles it
    had.  With the flag unset the hook returns at once and the database
    is the one it was called with.  A hook that raises has added no
    row. *)
Theorem build_profile_creates_iff_created
    (sender : Model) (instance : User) (created : bool) (kwargs : Kwargs)
    (db : DB) :
  let out := build_profile sender instance created kwargs db in
  journal (final out) =
    journal db ++ (if created then [CreateProfile instance] else []) ∧
  (created = true → out = Profile_objects_create instance db) ∧
  (created = false → out = Returned tt db) ∧
  (∀ db', out = Returned tt db' →
     users_profile db' =
       users_profile db ++
       (if created then [mkProfile (user_pk instance)] else []) ∧
     ∀ uid, profile_count uid db' =
            profile_count uid db +
            (if created && bool_decide (user_pk instance = uid)
             then 1 else 0)) ∧
  (∀ e db', out = Raised e db' →
     created = true ∧ users_profile db' = users_profile db) ∧
  (users_profile (final out) ≠ users_profile db → created = true).
Proof.
  destruct created; simpl.
  - rewrite create_journal.
    do 3 (split; [done|]). split; [|split; [|done]].
    + intros db' H. split.
      * by apply create_returned in H as (Hup & Hno & ->).
      * intros uid.
        pose proof (create_count instance db uid) as Hc.
        rewrite H in Hc; simpl in Hc.
        apply create_returned in H as (Hup & Hno & _).
        by rewrite Hup, Hno in Hc.
    + intros e db' H. by apply create_raised in H as (-> & _ & _).
  - rewrite app_nil_r.
    do 3 (split; [done|]). split; [|split; [done|done]].
    intros db' [= <-]. split; [by rewrite app_nil_r|]. intros; lia.
Qed.

(** C4. The hook raises exactly when it was called with [created=True]
    and the create of the Profile store raises, with the same error and
    the database as that one create left it: the failure is neither
    caught nor retried.  It reaches the caller of the save that fired
    the hook, and a save raises in no other way. *)
Theorem build_profile_raises_iff_create_raises `{PM : ProfileManager}
    (sender : Model) (instance : User) (created : bool) (kwargs : Kwargs)
    (db : DB) (e : ProvisioningError) (db' : DB) :
  (build_profile sender instance created kwargs db = Raised e db' ↔
   created = true ∧ objects_create instance db = Raised e db') ∧
  (post_save_send UserModel instance created kwargs db = Raised e db' ↔
   created = true ∧ objects_create instance db = Raised e db') ∧
  (User_save instance db = Raised e db' ↔
   user_exists (user_pk instance) db = false ∧
   objects_create instance (write_user instance db) = Raised e db').
Proof.
  split; [apply hook_raised|]. split.
  - rewrite post_save_send_user. apply hook_raised.
  - rewrite User_save_unfold, hook_raised.
    by rewrite negb_true_iff.
Qed.

(** C5. The hook never writes the User store: the User table and the
    User writes of the journal are what they were, however the hook
    ends.  With [created=True] exactly one write is issued to the
    Profile store, a create for the instance; with [created=False]
    nothing is written at all. *)
Theorem build_profile_frame
    (sender : Model) (instance : User) (created : bool) (kwargs : Kwargs)
    (db : DB) :
  let db' := final (build_profile sender instance created kwargs db) in
  auth_user db' = auth_user db ∧
  user_writes (journal db') = user_writes (journal db) ∧
  profile_writes (journal db') =
    profile_writes (journal db) ++
    (if created then [CreateProfile instance] else []) ∧
  (created = false → db' = db).
Proof.
  destruct created; simpl.
  - rewrite create_auth_user, create_journal.
    by rewrite user_writes_snoc_profile, profile_writes_snoc_profile.
  - by rewrite app_nil_r.
Qed.

(** C9. The hook looks at the instance and at the [created] flag only:
    two calls that agree on these two end alike, in the same database,
    whatever their senders and their extra keyword arguments. *)
Theorem build_profile_ignores_sender_and_kwargs `{PM : ProfileManager}
    (sender1 sender2 : Model) (kwargs1 kwargs2 : Kwargs)
    (instance : User) (created : bool) (db : DB) :
  build_profile sender1 instance created kwargs1 db =
  build_profile sender2 instance created kwargs2 db.
Proof. reflexivity. Qed.

(** C10. The hook does not look for an existing Profile.  Called with
    [created=True] it issues the create whatever the Profile table
    holds; on a store that takes writes the duplicate-association error
    is raised exactly when the user already has a Profile, so a second
    firing of a creation event that succeeded raises it. *)
Theorem build_profile_no_existence_check
    (sender : Model) (instance : User) (kwargs : Kwargs) (db : DB) :
  let out := build_profile sender instance true kwargs db in
  out = Profile_objects_create instance db ∧
  journal (final out) = journal db ++ [CreateProfile instance] ∧
  ((∃ db', out = Raised DuplicateAssociation db') ↔
   profile_store_up db = true ∧ has_profile (user_pk instance) db = true) ∧
  (∀ db1, out = Returned tt db1 →
     ∀ sender' kwargs',
       build_profile sender' instance true kwargs' db1 =
       Raised DuplicateAssociation
         (record_write (CreateProfile instance) db1)).
Proof.
  simpl. split; [done|]. split; [apply create_journal|]. split.
  - split.
    + intros [db' H]. apply create_raised in H as (_ & He & Hor).
      destruct (profile_store_up db); [|done].
      by destruct Hor.
    + intros [Hup Hhas]. eexists. apply create_raised.
      rewrite Hup. eauto.
  - intros db1 H sender' kwargs'. simpl.
    apply create_returned in H as (Hup & Hno & ->).
    apply create_raised; simpl. rewrite Hup. repeat split.
    right. apply has_profile_true.
    unfold profile_count. rewrite profiles_of_snoc, length_app.
    rewrite decide_True by done. simpl. lia.
Qed.

(** * The persistence layer *)

Lemma user_exists_true uid db :
  user_exists uid db = true ↔ is_Some (auth_user db !! uid).
Proof. unfold user_exists. apply bool_decide_eq_true. Qed.

Lemma user_exists_false uid db :
  user_exists uid db = false ↔ auth_user db !! uid = None.
Proof.
  unfold user_exists. rewrite bool_decide_eq_false.
  by rewrite eq_None_not_Some.
Qed.

Lemma user_exists_write_user u db uid :
  user_exists uid (write_user u db) =
  bool_decide (user_pk u = uid) || user_exists uid db.
Proof.
  unfold user_exists, write_user; simpl.
  destruct (decide (user_pk u = uid)) as [<-|Hne].
  - rewrite lookup_insert_eq, bool_decide_eq_true_2 by done.
    by rewrite bool_decide_eq_true_2 by eauto.
  - rewrite lookup_insert_ne by done.
    by rewrite (bool_decide_eq_false_2 (user_pk u = uid)) by done.
Qed.

Lemma profile_count_write_user u db uid :
  profile_count uid (write_user u db) = profile_count uid db.
Proof. reflexivity. Qed.


(** A step is a save, and a save is a step. *)
Lemma step_save db db' :
  step db db' ↔ ∃ u, db' = final (User_save u db).
Proof.
  split.
  - intros [u Hnew|u Hold]; exists u; unfold User_save.
    + apply user_exists_false in Hnew. by rewrite Hnew.
    + apply user_exists_true in Hold. by rewrite Hold.
  - intros [u ->]. unfold User_save.
    destruct (user_exists (user_pk u) db) eqn:Hex; simpl.
    + apply step_update. by apply user_exists_true.
    + apply step_create. by apply user_exists_false.
Qed.

Lemma save_journal u db :
  journal (final (User_save u db)) =
  journal db ++ WriteUser u ::
    (if user_exists (user_pk u) db then [] else [CreateProfile u]).
Proof.
  rewrite User_save_unfold.
  destruct (user_exists (user_pk u) db); simpl; [done|].
  rewrite create_journal; simpl. by rewrite <- app_assoc.
Qed.

Lemma save_auth_user u db :
  auth_user (final (User_save u db)) = <[user_pk u := u]> (auth_user db).
Proof.
  rewrite User_save_unfold.
  destruct (user_exists (user_pk u) db); simpl; [done|].
  by rewrite create_auth_user.
Qed.

Lemma save_store_up u db :
  profile_store_up (final (User_save u db)) = profile_store_up db.
Proof.
  rewrite User_save_unfold.
  destruct (user_exists (user_pk u) db); simpl; [done|].
  by rewrite create_store_up.
Qed.

Lemma save_count u db uid :
  profile_count uid (final (User_save u db)) =
  profile_count uid db +
  (if negb (user_exists (user_pk u) db) && profile_store_up db
      && negb (has_profile (user_pk u) db) && bool_decide (user_pk u = uid)
   then 1 else 0).
Proof.
  rewrite User_save_unfold.
  destruct (user_exists (user_pk u) db); simpl; [by rewrite Nat.add_0_r|].
  by rewrite create_count.
Qed.


(** *** The invariant *)

Lemma consistent_empty : consistent empty_db.
Proof.
  split; [done|]. split.
  - intros k u H. simpl in H. by rewrite lookup_empty in H.
  - intros uid. unfold user_exists, profile_count, profiles_of; simpl.
    rewrite lookup_empty. rewrite bool_decide_eq_false_2; [done|].
    by intros [? ?].
Qed.

Lemma consistent_save u db :
  consistent db → consistent (final (User_save u db)).
Proof.
  intros (Hup & Hkey & Hone). split; [|split].
  - by rewrite save_store_up.
  - intros k v. rewrite save_auth_user.
    destruct (decide (user_pk u = k)) as [<-|Hne].
    + rewrite lookup_insert_eq. by intros [= <-].
    + rewrite lookup_insert_ne by done. apply Hkey.
  - intros uid. rewrite save_count, Hup.
    assert (Hsame : user_exists uid (final (User_save u db)) =
                    bool_decide (user_pk u = uid) || user_exists uid db).
    { unfold user_exists at 1. rewrite save_auth_user.
      apply (user_exists_write_user u db uid). }
    rewrite Hsame.
    pose proof (Hone (user_pk u)) as Hu. pose proof (Hone uid) as Hv.
    destruct (user_exists (user_pk u) db) eqn:Hex; simpl.
    + rewrite Hv. destruct (decide (user_pk u = uid)) as [<-|Hne].
      * rewrite Hex, bool_decide_eq_true_2 by done. simpl. lia.
      * rewrite (bool_decide_eq_false_2 (user_pk u = uid)) by done.
        simpl. lia.
    + apply has_profile_count in Hu. rewrite Hu; simpl.
      destruct (decide (user_pk u = uid)) as [<-|Hne].
      * rewrite bool_decide_eq_true_2 by done. simpl.
        rewrite Hv, Hex. lia.
      * rewrite (bool_decide_eq_false_2 (user_pk u = uid)) by done.
        simpl. rewrite Hv. lia.
Qed.

Lemma consistent_step db db' : consistent db → step db db' → consistent db'.
Proof.
  intros Hc Hs. apply step_save in Hs as [u ->]. by apply consistent_save.
Qed.

Lemma reachable_consistent db : reachable db → consistent db.
Proof.
  unfold reachable. revert db.
  apply rtc_ind_r; [apply consistent_empty|].
  intros y z _ Hstep IH. by eapply consistent_step.
Qed.

Lemma reachable_save u db : reachable db → reachable (final (User_save u db)).
Proof.
  intros H. eapply rtc_r; [exact H|]. apply step_save. by exists u.
Qed.



Lemma consistent_no_orphan db : consistent db → no_orphan db.
Proof.
  intros (_ & _ & Hone) p Hin.
  apply user_exists_true.
  specialize (Hone (profile_user_id p)).
  destruct (user_exists (profile_user_id p) db); [done|].
  apply length_zero_iff_nil in Hone.
  assert (Hp : p ∈ profiles_of (profile_user_id p) db).
  { unfold profiles_of. by apply list_elem_of_filter. }
  rewrite Hone in Hp. by apply not_elem_of_nil in Hp.
Qed.

Lemma journal_ordered_save u db :
  journal_ordered (journal db) →
  journal_ordered (journal (final (User_save u db))).
Proof.
  intros Hord i v. rewrite save_journal.
  intros [Hl|[Hge Hl]]%lookup_app_Some.
  - apply Hord in Hl as (j & -> & Hj). exists j. split; [done|].
    by apply lookup_app_l_Some.
  - destruct (i - length (journal db)) as [|[|k]] eqn:Hk; simpl in Hl.
    + done.
    + destruct (user_exists (user_pk u) db); simpl in Hl; [done|].
      injection Hl as <-. exists (length (journal db)). split; [lia|].
      rewrite lookup_app_r by lia. by rewrite Nat.sub_diag.
    + destruct (user_exists (user_pk u) db); simpl in Hl; done.
Qed.

Lemma reachable_journal_ordered db :
  reachable db → journal_ordered (journal db).
Proof.
  unfold reachable. revert db. apply rtc_ind_r.
  - intros i u H. done.
  - intros y z _ [u ->]%step_save IH. by apply journal_ordered_save.
Qed.

Lemma save_update_rows u db :
  user_exists (user_pk u) db = true →
  User_save u db = Returned tt (write_user u db).
Proof. intros Hex. rewrite User_save_unfold. by rewrite Hex. Qed.

Lemma fire_count uid f db :
  (user_pk (f_instance f) = uid → f_created f = false) →
  profile_count uid (fire f db) = profile_count uid db.
Proof.
  intros Hupd. unfold fire. destruct (f_created f); simpl; [|done].
  rewrite create_count.
  rewrite (bool_decide_eq_false_2 (user_pk (f_instance f) = uid)).
  - rewrite andb_false_r. lia.
  - intros Heq. by specialize (Hupd Heq).
Qed.

(** * The claims about the persistence layer *)






(** C6. Firings of the hook for updates of a user leave the number of
    Profiles of that user as it was, however many there are and whatever
    is fired for other users in between.  A firing with [created=False]
    returns the database it was given, so repeating it changes nothing;
    saving an existing user any number of times leaves the Profile
    table and the Profile writes of the journal as they were.  The only
    receiver connected for [User] is [build_profile]: the commented-out
    [save_profile] is not called and so writes nothing. *)
Theorem update_firings_keep_profile_count
    (uid : Z) (fs : list Firing) (db : DB) :
  ((∀ f, f ∈ fs → user_pk (f_instance f) = uid → f_created f = false) →
   profile_count uid (fire_all fs db) = profile_count uid db) ∧
  (∀ sender u kwargs,
     build_profile sender u false kwargs db = Returned tt db) ∧
  (∀ u n, user_exists (user_pk u) db = true →
     users_profile (save_repeatedly n u db) = users_profile db ∧
     profile_writes (journal (save_repeatedly n u db)) =
       profile_writes (journal db)) ∧
  post_save_receivers UserModel = [build_profile] ∧
  (∀ u kwargs, post_save_send UserModel u false kwargs db = Returned tt db).
Proof.
  split; [|split; [done|split; [|done]]].
  - revert db. induction fs as [|f fs IH]; intros db Hupd; [done|].
    simpl. rewrite IH.
    + apply fire_count. apply Hupd. left.
    + intros g Hg. apply Hupd. by right.
  - intros u n Hex.
    assert (Hit : user_exists (user_pk u) (save_repeatedly n u db) = true ∧
                  users_profile (save_repeatedly n u db) = users_profile db ∧
                  profile_writes (journal (save_repeatedly n u db)) =
                    profile_writes (journal db)).
    { induction n as [|n (Hn & Hrows & Hjn)]; [done|].
      unfold save_repeatedly in *. simpl.
      rewrite (save_update_rows _ _ Hn). simpl.
      rewrite profile_writes_snoc_user. split; [|done].
      rewrite user_exists_write_user, Hn. apply orb_true_r. }
    by destruct Hit as (_ & ? & ?).
Qed.

Lemma update_firings_keep_profile_count_witness :
  profile_count 1
    (fire_all [mkFiring UserModel alice2 false save_kwargs;
               mkFiring UserModel bob true save_kwargs;
               mkFiring UserModel alice2 false []]
       (final (User_save alice empty_db))) = 1.
Proof.
  refine (eq_trans
    (proj1 (update_firings_keep_profile_count 1%Z
              [mkFiring UserModel alice2 false save_kwargs;
               mkFiring UserModel bob true save_kwargs;
               mkFiring UserModel alice2 false []]
              (final (User_save alice empty_db))) _) _).
  - intros f Hf Hpk.
    repeat (apply elem_of_cons in Hf as [->|Hf]; [done|]).
    by apply not_elem_of_nil in Hf.
  - vm_compute. reflexivity.
Defined.


(** C8. A save first writes the User row and then fires the hook, on a
    database in which that row is already there.  So in every reachable
    database each create of a Profile in the journal comes directly
    after the write of its User, and no Profile references a missing
    User.  When a surrounding transaction rolls back, whether the hook
    or a later statement raised, the tables are those it started from:
    no Profile is left behind. *)
Theorem profile_write_follows_user_write (db : DB) (u : User) :
  (User_save u db =
     build_profile UserModel u (negb (user_exists (user_pk u) db))
       save_kwargs (write_user u db) ∧
   auth_user (write_user u db) !! user_pk u = Some u ∧
   journal (final (User_save u db)) =
     journal db ++ WriteUser u ::
       (if user_exists (user_pk u) db then [] else [CreateProfile u])) ∧
  (reachable db →
     journal_ordered (journal db) ∧ no_orphan db ∧
     journal_ordered (journal (final (User_save u db))) ∧
     no_orphan (final (User_save u db))) ∧
  (∀ (rest : M unit) e db',
     atomic (User_save u >> rest) db = Raised e db' →
     auth_user db' = auth_user db ∧ users_profile db' = users_profile db ∧
     (no_orphan db → no_orphan db')).
Proof.
  split; [|split].
  - split; [apply User_save_unfold|]. split; [|apply save_journal].
    unfold write_user; simpl. apply lookup_insert_eq.
  - intros Hr. pose proof (reachable_save u db Hr) as Hr'.
    split; [by apply reachable_journal_ordered|].
    split; [by apply consistent_no_orphan, reachable_consistent|].
    split; [by apply reachable_journal_ordered|].
    by apply consistent_no_orphan, reachable_consistent.
  - intros rest e db' H. unfold atomic in H.
    destruct ((User_save u >> rest) db) as [[] d|e' d]; [done|].
    injection H as <- <-. simpl. done.
Qed.

Lemma profile_write_follows_user_write_witness :
  reachable (final (User_save alice empty_db)) ∧
  journal_ordered (journal (save_all [alice; bob] empty_db)) ∧
  no_orphan (save_all [alice; bob] empty_db).
Proof.
  assert (Hr : reachable (final (User_save alice empty_db))).
  { apply reachable_save. apply rtc_refl. }
  split; [exact Hr|].
  destruct (proj1 (proj2 (profile_write_follows_user_write
                            (final (User_save alice empty_db)) bob)) Hr)
    as (_ & _ & Hord & Hno).
  split; [exact Hord | exact Hno].
Defined.

(** * Further properties of the hook *)

Lemma fire_rows f db :
  users_profile (fire f db) =
  users_profile db ++
  (if f_created f && profile_store_up db
      && negb (has_profile (user_pk (f_instance f)) db)
   then [mkProfile (user_pk (f_instance f))] else []).
Proof.
  unfold fire. destruct (f_created f); simpl; [|by rewrite app_nil_r].
  case_create (f_instance f) db; by rewrite ?app_nil_r.
Qed.

Lemma fire_auth_user f db : auth_user (fire f db) = auth_user db.
Proof.
  unfold fire. destruct (f_created f); simpl; [|done].
  apply create_auth_user.
Qed.

Lemma fire_store_up f db : profile_store_up (fire f db) = profile_store_up db.
Proof.
  unfold fire. destruct (f_created f); simpl; [|done].
  apply create_store_up.
Qed.

Lemma profile_count_rows_app uid db db' extra :
  users_profile db' = users_profile db ++ extra →
  profile_count uid db' =
  profile_count uid db +
  length (filter (λ p, profile_user_id p = uid) extra).
Proof.
  unfold profile_count, profiles_of. intros ->.
  by rewrite filter_app, length_app.
Qed.

Lemma fire_count_gen uid f db :
  profile_count uid (fire f db) =
  profile_count uid db +
  (if f_created f && profile_store_up db
      && negb (has_profile (user_pk (f_instance f)) db)
      && bool_decide (user_pk (f_instance f) = uid)
   then 1 else 0).
Proof.
  rewrite (profile_count_rows_app uid db _ _ (fire_rows f db)). f_equal.
  destruct (f_created f && profile_store_up db
            && negb (has_profile (user_pk (f_instance f)) db)); simpl;
    [|done].
  rewrite filter_cons, filter_nil; simpl.
  destruct (decide (user_pk (f_instance f) = uid)) as [Heq|Hne].
  - by rewrite (bool_decide_eq_true_2 _ Heq).
  - by rewrite (bool_decide_eq_false_2 _ Hne).
Qed.

Lemma has_profile_eqb uid db :
  has_profile uid db = negb (profile_count uid db =? 0).
Proof.
  destruct (has_profile uid db) eqn:Hh.
  - apply has_profile_true in Hh. symmetry. apply negb_true_iff.
    apply Nat.eqb_neq. lia.
  - apply has_profile_count in Hh. by rewrite Hh.
Qed.



(** X2. Firings of the hook only ever append to the Profile table.
    Whatever is fired, in whatever order and with whatever outcome, the
    User table is the one before, the old Profile table is a prefix of
    the new one, and no user has fewer Profiles than before. *)
Theorem firings_only_append_profiles (fs : list Firing) (db : DB) :
  auth_user (fire_all fs db) = auth_user db ∧
  profile_store_up (fire_all fs db) = profile_store_up db ∧
  users_profile db `prefix_of` users_profile (fire_all fs db) ∧
  ∀ uid, profile_count uid db ≤ profile_count uid (fire_all fs db).
Proof.
  revert db. induction fs as [|f fs IH]; intros db; simpl.
  - repeat split; try done; intros; lia.
  - destruct (IH (fire f db)) as (Hu & Hs & Hp & Hc).
    rewrite Hu, Hs, fire_auth_user, fire_store_up.
    split; [done|]. split; [done|]. split.
    + etrans; [|exact Hp]. rewrite fire_rows. by apply prefix_app_r.
    + intros uid. specialize (Hc uid). rewrite fire_count_gen in Hc. lia.
Qed.

(** X3. Firing the same event again changes no table: after the first
    firing any number of repetitions leaves the Profile table and the
    User table as the first firing left them. *)
Theorem repeated_firing_is_one_firing (f : Firing) (n : nat) (db : DB) :
  users_profile (Nat.iter (S n) (fire f) db) = users_profile (fire f db) ∧
  auth_user (Nat.iter (S n) (fire f) db) = auth_user db.
Proof.
  induction n as [|n [IHr IHu]]; [split; [done|apply fire_auth_user]|].
  change (Nat.iter (S (S n)) (fire f) db)
    with (fire f (Nat.iter (S n) (fire f) db)).
  rewrite fire_auth_user. split; [|done].
  rewrite fire_rows, <- IHr.
  assert (Hno : f_created f && profile_store_up (Nat.iter (S n) (fire f) db)
                && negb (has_profile (user_pk (f_instance f))
                           (Nat.iter (S n) (fire f) db)) = false).
  { destruct (f_created f) eqn:Hc; [|done].
    destruct (profile_store_up (Nat.iter (S n) (fire f) db)) eqn:Hup;
      [|done].
    rewrite !andb_true_l. apply negb_false_iff. rewrite has_profile_eqb.
    apply negb_true_iff, Nat.eqb_neq.
    unfold profile_count, profiles_of. rewrite IHr.
    assert (Hup0 : profile_store_up db = true).
    { clear -Hup. induction n as [|n IH].
      - simpl in Hup. by rewrite fire_store_up in Hup.
      - apply IH.
        change (Nat.iter (S (S n)) (fire f) db)
          with (fire f (Nat.iter (S n) (fire f) db)) in Hup.
        by rewrite fire_store_up in Hup. }
    pose proof (fire_count_gen (user_pk (f_instance f)) f db) as Hcount.
    rewrite Hc, Hup0, bool_decide_eq_true_2, has_profile_eqb in Hcount
      by done.
    unfold profile_count, profiles_of in Hcount.
    destruct (length (filter (λ p, profile_user_id p = user_pk (f_instance f))
                        (users_profile db))); simpl in Hcount; lia. }
  rewrite Hno. by rewrite app_nil_r.
Qed.

(** X4. The order of two firings does not matter to the number of
    Profiles of any user: firing [f] then [g] leaves every user with as
    many Profiles as firing [g] then [f], on any database. *)
Theorem firings_commute_on_counts (f g : Firing) (db : DB) (uid : Z) :
  profile_count uid (fire g (fire f db)) =
  profile_count uid (fire f (fire g db)).
Proof.
  rewrite !fire_count_gen, !fire_store_up, !has_profile_eqb.
  rewrite !fire_count_gen, !has_profile_eqb.
  generalize (user_pk (f_instance f)) (user_pk (f_instance g)).
  intros pf pg.
  destruct (f_created f), (f_created g), (profile_store_up db); simpl;
    try lia;
  repeat case_bool_decide; simplify_eq;
    repeat match goal with
           | |- context [profile_count ?k db] =>
               destruct (profile_count k db)
           end; simpl; lia.
Qed.

(** * Further properties of the runs *)








(** * The movie catalogue *)

Lemma filter_all_iff {A} (P : A → Prop) `{!∀ x, Decision (P x)}
    (l : list A) :
  filter P l = l ↔ Forall P l.
Proof.
  split.
  - intros Heq. apply Forall_forall. intros x Hx.
    rewrite <- Heq in Hx. by apply list_elem_of_filter in Hx as [? _].
  - induction 1 as [|x l Hx _ IH]; [done|].
    rewrite filter_cons. rewrite decide_True by done. by rewrite IH.
Qed.

(** X7. What [ActionView] serves is a sub-sequence of what
    [MovieViewSet] serves, made of exactly the movies whose [typ] is
    "fiction"; the two view sets serve the same movies exactly when
    every movie of the catalogue has that [typ]. *)
Theorem ActionView_serves_the_fiction
    {float : Type} (tbl : list (MovieData float)) :
  ActionView_queryset tbl `sublist_of` MovieViewSet_queryset tbl ∧
  (∀ m, m ∈ ActionView_queryset tbl ↔
        m ∈ MovieViewSet_queryset tbl ∧ typ m = "fiction") ∧
  (ActionView_queryset tbl = MovieViewSet_queryset tbl ↔
   Forall (λ m, typ m = "fiction") tbl).
Proof.
  unfold ActionView_queryset, MovieViewSet_queryset.
  split; [apply sublist_filter|]. split.
  - intros m. rewrite list_elem_of_filter. tauto.
  - apply filter_all_iff.
Qed.

(** X8. A movie made without a [typ] gets the default "fiction", so once
    it is in the catalogue both view sets serve it, at the end; a movie
    made with any other [typ] is served by [MovieViewSet] only, and
    [ActionView] serves what it served before.  Its [__str__] is the
    name it was made with. *)
Theorem new_movie_in_the_views
    {float : Type} (tbl : list (MovieData float))
    (n : string) (d r : float) (t : option string) :
  MovieData_str (MovieData_init n d r t) = n ∧
  MovieViewSet_queryset (tbl ++ [MovieData_init n d r t]) =
    MovieViewSet_queryset tbl ++ [MovieData_init n d r t] ∧
  ActionView_queryset (tbl ++ [MovieData_init n d r t]) =
    ActionView_queryset tbl ++
    (if decide (t = None ∨ t = Some "fiction")
     then [MovieData_init n d r t] else []).
Proof.
  split; [done|]. split; [done|].
  unfold ActionView_queryset. rewrite filter_app. f_equal.
  rewrite filter_cons, filter_nil.
  unfold MovieData_init, typ_default.
  destruct t as [t|]; simpl.
  - destruct (decide (_ ∨ _)) as [Hor|Hnor],
             (decide (t = "fiction")) as [Heq|Hne];
      try done.
    + exfalso. destruct Hor as [?|[= ?]]; done.
    + exfalso. apply Hnor. right. by rewrite Heq.
  - done.
Qed.

(** * The food views *)

Section FoodFacts.
Context {Item HttpRequest : Type}.
Implicit Types (req : HttpRequest) (tbl : gmap Z Item) (it : Item).

(** X9. [detail] ends with [DoesNotExist] exactly when no Item is stored
    under the key, and otherwise renders "food/details.html" with the
    Item stored under it.  So it shows an Item that was just stored
    under the key, and fails on a key that was just deleted. *)
Theorem detail_fails_iff_key_missing req (item_id : Z) tbl :
  (detail req item_id tbl = Failed DoesNotExist ↔ tbl !! item_id = None) ∧
  (∀ it, detail req item_id tbl =
           Responded (render req "food/details.html" [("item", CtxItem it)])
         ↔ tbl !! item_id = Some it) ∧
  (∀ it, detail req item_id (<[item_id := it]> tbl) =
           Responded (render req "food/details.html" [("item", CtxItem it)])) ∧
  detail req item_id (delete item_id tbl) = Failed DoesNotExist.
Proof.
  unfold detail, Item_objects_get. split; [|split; [|split]].
  - destruct (tbl !! item_id); split; done.
  - intros it. destruct (tbl !! item_id) as [it'|]; split; try done.
    + by intros [= ->].
    + by intros [= ->].
  - intros it. by rewrite lookup_insert_eq.
  - by rewrite lookup_delete_eq.
Qed.

(** X10. [index] never fails: it renders "food/index.html" with a list
    that has one entry for each key of the table.  The Items of that
    list are exactly the Items [detail] can show: an Item is listed if
    and only if [detail] renders it for some key. *)
Theorem index_lists_what_detail_shows req tbl :
  ∃ l, index req tbl =
         Responded (render req "food/index.html"
                      [("item_list", CtxItemList l)]) ∧
       length l = size tbl ∧
       (tbl = ∅ → l = []) ∧
       ∀ it, it ∈ l ↔
             ∃ k, detail req k tbl =
                    Responded (render req "food/details.html"
                                 [("item", CtxItem it)]).
Proof.
  exists (Item_objects_all tbl). split; [done|].
  unfold Item_objects_all. split; [|split].
  - by rewrite length_fmap, length_map_to_list.
  - intros ->. by rewrite map_to_list_empty.
  - intros it. rewrite list_elem_of_fmap. split.
    + intros ([k it'] & -> & Hin). exists k.
      apply elem_of_map_to_list in Hin. simpl.
      unfold detail, Item_objects_get. by rewrite Hin.
    + intros [k Hk]. unfold detail, Item_objects_get in Hk.
      destruct (tbl !! k) as [it'|] eqn:Hl; [|done].
      injection Hk as ->. exists (k, it). split; [done|].
      by apply elem_of_map_to_list.
Qed.

End FoodFacts.
